(** * AsyncAwaitDemo: the load-test harness of CSharpDemo/LoadTests/load-test.py

    A shallow embedding of [make_request], [run_load_test] and the comparison
    loop of [main], followed by the properties of the statistics they compute.

    Numbers.  A Python [float] is modelled by the rational it denotes ([Q]):
    arithmetic is exact, so binary64 rounding error, infinities and NaN are
    outside the model.  What Python does on top of the arithmetic is kept:
    [/] raises [ZeroDivisionError] on a zero divisor, [int(x)] truncates
    towards zero, [round(x, 2)] rounds half to even at two decimals, list
    indexing raises [IndexError] out of range.  Two floats are the same
    number when they are [Qeq] ([==]).

    The statistics block rounds two quotients to two decimals: the
    throughput [total / total_time] and the mean.  The interpreter rounds the
    binary64 value of the quotient, the model the exact one.  The two agree on
    the hundredth they report unless the exact quotient is half-way between
    two hundredths, or within the binary64 error of that point: there the
    float may fall on either side.  1/40 is stored slightly above 0.025 and
    is reported as 0.03, where the exact tie goes to the even neighbour 0.02
    ([quotient_at_tie]).  What is proved of these two fields is therefore
    stated for the nearest hundredth ([nearest_hundredth]), which holds
    whichever neighbour a tie goes to, and by order ([round2_mono]); no
    theorem of a claim fixes the neighbour.

    Effects.  An exception is a value of [exn]; a call either returns or
    raises ([result]).  The requests put on the wire are logged in the state
    of the monad [M].  What the network and the clock answer is an input
    ([request_obs], [run_env]).  [print] statements are left out: they do not
    change any value the functions return. *)

From Stdlib Require Import ZArith QArith Qround Qabs Lqa Lia Bool List String.
From Stdlib Require Import Sorting.Sorted Sorting.Permutation Sorting.Mergesort Orders.
From Stdlib Require Import Floats.SpecFloat.
Import ListNotations.

Local Open Scope Q_scope.

(** ** Exceptions and results *)

(** The exceptions of the model.  All of them derive from [Exception], which
    is what [except Exception] catches; [requests.get] reports a timeout, a
    refused connection or any other transport error as a
    [RequestException]. *)
Inductive exn : Type :=
| ValueError (msg : string)
| ZeroDivisionError
| IndexError
| StatisticsError
| RequestException (msg : string).

(** [str(e)] *)
Definition str (e : exn) : string :=
  match e with
  | ValueError msg => msg
  | ZeroDivisionError => "float division by zero"
  | IndexError => "list index out of range"
  | StatisticsError => "mean requires at least one data point"
  | RequestException msg => msg
  end.

Inductive result (A : Type) : Type :=
| Returned (a : A)
| Raised (e : exn).

Arguments Returned {A} a.
Arguments Raised {A} e.

Definition rbind {A B} (r : result A) (k : A -> result B) : result B :=
  match r with
  | Returned a => k a
  | Raised e => Raised e
  end.

Declare Scope result_scope.
Delimit Scope result_scope with result.
Notation "'let?' x ':=' r 'in' k" := (rbind r (fun x => k))
  (at level 10, x name, r at level 100, k at level 200) : result_scope.
Local Open Scope result_scope.

(** ** Python's float and list primitives *)

Module Py.

(** [a / b] on floats *)
Definition div (a b : Q) : result Q :=
  if Qeq_bool b 0 then Raised ZeroDivisionError else Returned (a / b).

(** [int(x)]: truncation towards zero *)
Definition int (x : Q) : Z :=
  if Qle_bool 0 x then Qfloor x else Qceiling x.

(** nearest integer, ties to the even one *)
Definition round_half_even (x : Q) : Z :=
  let f := Qfloor x in
  match Qcompare (x - inject_Z f) (1 # 2) with
  | Lt => f
  | Gt => (f + 1)%Z
  | Eq => if Z.even f then f else (f + 1)%Z
  end.

(** [round(x, 2)] *)
Definition round2 (x : Q) : Q :=
  inject_Z (round_half_even (x * 100)) / 100.

(** [len(l)] *)
Definition len {A} (l : list A) : Z := Z.of_nat (List.length l).

(** [l[i]]: negative indices count from the end *)
Definition index (l : list Q) (i : Z) : result Q :=
  let j := if (i <? 0)%Z then (len l + i)%Z else i in
  if ((0 <=? j) && (j <? len l))%Z%bool
  then Returned (nth (Z.to_nat j) l 0)
  else Raised IndexError.

(** [min(l)]: the first of the smallest elements *)
Definition min (l : list Q) : result Q :=
  match l with
  | [] => Raised (ValueError "min() arg is an empty sequence")
  | x :: l' => Returned (fold_left (fun m y => if Qlt_le_dec y m then y else m) l' x)
  end.

(** [max(l)]: the first of the largest elements *)
Definition max (l : list Q) : result Q :=
  match l with
  | [] => Raised (ValueError "max() arg is an empty sequence")
  | x :: l' => Returned (fold_left (fun m y => if Qlt_le_dec m y then y else m) l' x)
  end.

(** [sum(l)] *)
Definition sum (l : list Q) : Q := fold_right Qplus 0 l.

(** [statistics.mean(l)] *)
Definition mean (l : list Q) : result Q :=
  match l with
  | [] => Raised StatisticsError
  | _ => Returned (sum l / inject_Z (len l))
  end.

(** [l.sort()] on floats: ascending *)
Module QOrder <: TotalLeBool.
Definition t := Q.
Definition leb := Qle_bool.
Theorem leb_total : forall a1 a2, leb a1 a2 = true \/ leb a2 a1 = true.
Proof.
  intros a b. unfold leb.
  destruct (Qlt_le_dec b a) as [H | H].
  - right. apply Qle_bool_iff. apply Qlt_le_weak. exact H.
  - left. apply Qle_bool_iff. exact H.
Qed.
End QOrder.

Module QSort := Sort QOrder.

Definition sort (l : list Q) : list Q := QSort.sort l.

End Py.

(** ** The state-and-exception monad of the harness

    The state is the list of URLs handed to [requests.get] so far, oldest
    first. *)

Definition M (A : Type) : Type := list string -> result A * list string.

Definition ret {A} (a : A) : M A := fun w => (Returned a, w).

Definition raise {A} (e : exn) : M A := fun w => (Raised e, w).

Definition lift {A} (r : result A) : M A := fun w => (r, w).

Definition bind {A B} (m : M A) (k : A -> M B) : M B :=
  fun w =>
    match m w with
    | (Returned a, w') => k a w'
    | (Raised e, w') => (Raised e, w')
    end.

(** [try: body  except Exception as e: handler] *)
Definition try_except {A} (body : M A) (handler : exn -> M A) : M A :=
  fun w =>
    match body w with
    | (Returned a, w') => (Returned a, w')
    | (Raised e, w') => handler e w'
    end.

Declare Scope M_scope.
Delimit Scope M_scope with M.
Notation "x <- m ;; k" := (bind m (fun x => k))
  (at level 61, m at next level, right associativity) : M_scope.
Notation "m ;;; k" := (bind m (fun _ => k))
  (at level 61, right associativity) : M_scope.

Fixpoint mapM {A B} (f : A -> M B) (l : list A) : M (list B) :=
  match l with
  | [] => ret []
  | a :: l' => (b <- f a ;; bs <- mapM f l' ;; ret (b :: bs))%M
  end.

(** ** Data *)

(** the part of a [requests.Response] the harness reads *)
Record response : Type := { status_code : Z }.

(** [result['status']]: the status code, or the string ['error'] *)
Inductive status_field : Type :=
| StatusCode (code : Z)
| StatusError.

(** the dict [make_request] returns; ['error'] is only set by the handler *)
Record outcome : Type := {
  success : bool;
  time : Q;
  status : status_field;
  error : option string
}.

(** What one call of [make_request] observes: the two readings of
    [time.time()], in seconds, and what [requests.get] does. *)
Record request_obs : Type := {
  t_begin : Q;
  reply : result response;
  t_finish : Q
}.

(** the dict [run_load_test] returns *)
Record stats : Type := {
  total_requests : Z;
  successful : Z;
  failed : Z;
  total_time_sec : Q;
  requests_per_sec : Q;
  avg_response_ms : Q;
  min_response_ms : Q;
  max_response_ms : Q;
  p50_ms : Q;
  p95_ms : Q;
  p99_ms : Q
}.

(** What one call of [run_load_test] observes: [time.time()] before the pool
    is built and after it is shut down, and for every k what the k-th request
    to complete observed ([as_completed] yields in completion order). *)
Record run_env : Type := {
  start_clock : Q;
  end_clock : Q;
  completed : nat -> request_obs
}.

Definition BASE_URL : string := "http://localhost:5000".
Definition CONCURRENT_REQUESTS : Z := 100.
Definition TOTAL_REQUESTS : Z := 500.

(** ** make_request *)

(** [requests.get(url, timeout=...)]: logs the call, then returns the
    response or raises, as the network decides. *)
Definition requests_get (url : string) (timeout : Q) (o : request_obs) : M response :=
  fun w => (reply o, w ++ [url]).

Definition make_request (url : string) (o : request_obs) : M outcome :=
  let start := t_begin o in
  try_except
    (response <- requests_get url 30 o ;;
     let elapsed := (t_finish o - start) * 1000 in
     ret {| success := (status_code response =? 200)%Z;
            time := elapsed;
            status := StatusCode (status_code response);
            error := None |})%M
    (fun e =>
     let elapsed := (t_finish o - start) * 1000 in
     ret {| success := false;
            time := elapsed;
            status := StatusError;
            error := Some (str e) |}).

(** ** run_load_test *)

(** [ThreadPoolExecutor(max_workers=n)] of concurrent.futures: the
    constructor rejects a pool without workers. *)
Definition ThreadPoolExecutor (max_workers : Z) : M unit :=
  if (max_workers <=? 0)%Z
  then raise (ValueError "max_workers must be greater than 0")
  else ret tt.

(** [range(total)] *)
Definition range (total : Z) : list nat := seq 0 (Z.to_nat total).

(** The loop over [as_completed(futures)], lines 74-78: every latency is
    appended to [results], failures are counted in [errors]. *)
Fixpoint collect (futures : list outcome) (results : list Q) (errors : Z)
  : list Q * Z :=
  match futures with
  | [] => (results, errors)
  | result :: rest =>
      collect rest (results ++ [time result])
              (if negb (success result) then (errors + 1)%Z else errors)
  end.

(** The block under [# Calculate statistics], lines 87-123. *)
Definition calculate_statistics (total errors : Z) (total_time : Q) (results : list Q)
  : result (option stats) :=
  match results with
  | [] => Returned None
  | _ :: _ =>
      let results := Py.sort results in
      let n := inject_Z (Py.len results) in
      let? rps := Py.div (inject_Z total) total_time in
      let? avg := Py.mean results in
      let? lo := Py.min results in
      let? hi := Py.max results in
      let? p50 := Py.index results (Py.int (n * 0.50)) in
      let? p95 := Py.index results (Py.int (n * 0.95)) in
      let? p99 := Py.index results (Py.int (n * 0.99)) in
      Returned (Some {|
        total_requests := total;
        successful := (total - errors)%Z;
        failed := errors;
        total_time_sec := Py.round2 total_time;
        requests_per_sec := Py.round2 rps;
        avg_response_ms := Py.round2 avg;
        min_response_ms := Py.round2 lo;
        max_response_ms := Py.round2 hi;
        p50_ms := Py.round2 p50;
        p95_ms := Py.round2 p95;
        p99_ms := Py.round2 p99 |})
  end.

Definition run_load_test (endpoint name : string) (concurrent total : Z) (env : run_env)
  : M (option stats) :=
  let url := (BASE_URL ++ endpoint)%string in
  let start_time := start_clock env in
  (ThreadPoolExecutor concurrent ;;;
   futures <- mapM (fun k => make_request url (completed env k)) (range total) ;;
   let '(results, errors) := collect futures [] 0%Z in
   let total_time := end_clock env - start_time in
   lift (calculate_statistics total errors total_time results))%M.

(** ** The comparison loop of main *)

(** the two values bound to [improvement], lines 206-207 and 213-214 *)
Record comparison : Type := {
  throughput_improvement : Q;
  faster_by : Q
}.

(** the body of the loop for one pair, lines 199-215 *)
Definition compare (async_stats sync_stats : stats) : result comparison :=
  let? q := Py.div (requests_per_sec async_stats - requests_per_sec sync_stats)
                   (requests_per_sec sync_stats) in
  let improvement := q * 100 in
  let? q' := Py.div (avg_response_ms sync_stats - avg_response_ms async_stats)
                    (avg_response_ms sync_stats) in
  let improvement' := q' * 100 in
  Returned {| throughput_improvement := improvement; faster_by := improvement' |}.

(** [all_results.get(key)]: [None] when the key is absent *)
Fixpoint dict_get (all_results : list (string * option stats)) (key : string)
  : option stats :=
  match all_results with
  | [] => None
  | (k, v) :: rest => if String.eqb k key then v else dict_get rest key
  end.

Definition comparisons : list (string * string * string) :=
  [ ("Users Endpoint", "async_users", "sync_users");
    ("Orders Endpoint", "async_orders", "sync_orders") ]%string.

(** lines 197-219: pairs with a missing side are skipped *)
Fixpoint compare_all (all_results : list (string * option stats))
         (pairs : list (string * string * string))
  : result (list (string * comparison)) :=
  match pairs with
  | [] => Returned []
  | (name, async_key, sync_key) :: rest =>
      match dict_get all_results async_key, dict_get all_results sync_key with
      | Some async_stats, Some sync_stats =>
          let? c := compare async_stats sync_stats in
          let? cs := compare_all all_results rest in
          Returned ((name, c) :: cs)
      | _, _ => compare_all all_results rest
      end
  end.

(** the four records [main] stores, keyed as in the source *)
Definition all_results_of (async_users async_orders sync_users sync_orders : option stats)
  : list (string * option stats) :=
  [ ("async_users", async_users); ("async_orders", async_orders);
    ("sync_users", sync_users); ("sync_orders", sync_orders) ]%string.

(** ** check_server, reset_metrics and main *)

(** [requests.post(url, timeout=...)]: logged like a [get] *)
Definition requests_post (url : string) (timeout : Q) (o : request_obs) : M response :=
  fun w => (reply o, w ++ [url]).

(** lines 17-23; the bare [except:] catches whatever is raised *)
Definition check_server (o : request_obs) : M bool :=
  try_except
    (response <- requests_get (BASE_URL ++ "/metrics") 5 o ;;
     ret (status_code response =? 200)%Z)%M
    (fun _ => ret false).

(** lines 25-31.  The function returns [None]; the value here is the line it
    prints, the only thing that tells its two branches apart. *)
Definition reset_metrics (o : request_obs) : M string :=
  try_except
    (requests_post (BASE_URL ++ "/metrics/reset") 5 o ;;;
     ret "✓ Metrics reset"%string)%M
    (fun _ => ret "✗ Failed to reset metrics"%string).

(** how [main] ends: [sys.exit(code)], or the end of its body with the
    comparisons it printed *)
Inductive main_outcome : Type :=
| Exited (code : Z)
| Finished (cs : list (string * comparison)).

(** what one call of [main] observes: the probe of [check_server], the call
    of [reset_metrics] and the four runs, in the order of the source *)
Record main_env : Type := {
  probe : request_obs;
  reset : request_obs;
  async_users_run : run_env;
  async_orders_run : run_env;
  sync_users_run : run_env;
  sync_orders_run : run_env
}.

(** lines 125-219 *)
Definition main (env : main_env) : M main_outcome :=
  (up <- check_server (probe env) ;;
   if negb up then ret (Exited 1)
   else
     reset_metrics (reset env) ;;;
     async_users <- run_load_test "/api/async/users" "ASYNC - Get Users"
                      CONCURRENT_REQUESTS TOTAL_REQUESTS (async_users_run env) ;;
     async_orders <- run_load_test "/api/async/orders/123" "ASYNC - Get Orders"
                       CONCURRENT_REQUESTS TOTAL_REQUESTS (async_orders_run env) ;;
     sync_users <- run_load_test "/api/sync/users" "SYNC - Get Users"
                     CONCURRENT_REQUESTS TOTAL_REQUESTS (sync_users_run env) ;;
     sync_orders <- run_load_test "/api/sync/orders/123" "SYNC - Get Orders"
                      CONCURRENT_REQUESTS TOTAL_REQUESTS (sync_orders_run env) ;;
     let all_results := all_results_of async_users async_orders sync_users sync_orders in
     cs <- lift (compare_all all_results comparisons) ;;
     ret (Finished cs))%M.

(** ** web/serve.py *)

Module Serve.

Definition ports_to_try : list Z := [8000; 8081; 8082; 3001; 5500; 9000]%Z.

(** What the [with socketserver.TCPServer(("", port), Handler)] block does
    for a port: the server comes up and serves, or an [OSError] with an
    [errno] is raised. *)
Inductive attempt : Type :=
| Serves
| OSError (errno : Z).

(** how the script ends: inside [serve_forever] on a port (how long it stays
    there is not modelled), or by [sys.exit(code)] *)
Inductive ending : Type :=
| Serving (port : Z)
| Exit (code : Z).

(** The [for port in ports ... else] loop, lines 9-27; [tried] are the ports
    a server was constructed for so far. *)
Fixpoint scan (env : Z -> attempt) (ports tried : list Z) : ending * list Z :=
  match ports with
  | [] => (Exit 1, tried)
  | port :: rest =>
      match env port with
      | Serves => (Serving port, tried ++ [port])
      | OSError errno =>
          if ((errno =? 10013) || (errno =? 48))%Z
          then scan env rest (tried ++ [port])
          else (Exit 1, tried ++ [port])
      end
  end.

Definition serve (env : Z -> attempt) : ending * list Z := scan env ports_to_try [].

End Serve.

(** ** The list indices in binary64

    The products [len(results) * 0.50], [* 0.95] and [* 0.99] are the only
    floats the harness turns into integers.  They are computed here in IEEE
    754 binary64, to compare the index the interpreter uses with the exact
    one of the model. *)

Module Binary64.

Definition prec : Z := 53.
Definition emax : Z := 1024.

(** [float(n)] *)
Definition of_Z (n : Z) : spec_float := binary_normalize prec emax n 0 false.

(** the literal [0.PP]: the float nearest to P/100 *)
Definition literal (P : Z) : spec_float := SFdiv prec emax (of_Z P) (of_Z 100).

(** [int(x)]: truncation towards zero *)
Definition int (x : spec_float) : Z :=
  match x with
  | S754_finite s m e =>
      let v := match e with
               | Zneg p => (Zpos m / 2 ^ Zpos p)%Z
               | _ => (Zpos m * 2 ^ e)%Z
               end in
      if s then (- v)%Z else v
  | _ => 0%Z
  end.

(** [int(n * 0.PP)] *)
Definition index_of (n P : Z) : Z := int (SFmul prec emax (of_Z n) (literal P)).

(** the rational a finite float denotes *)
Definition to_Q (x : spec_float) : Q :=
  match x with
  | S754_finite s m e =>
      let v := inject_Z (Zpos m) * Qpower 2 e in
      if s then - v else v
  | _ => 0
  end.

(** [a / b] on two integers held as floats: the float nearest to the
    exact quotient *)
Definition quotient (a b : Z) : spec_float := SFdiv prec emax (of_Z a) (of_Z b).

(** the three indices agree with the exact ones for the lengths 1..N *)
Definition indices_agree (N : nat) : bool :=
  forallb (fun k =>
             let n := Z.of_nat k in
             (index_of n 50 =? n * 50 / 100)%Z &&
             (index_of n 95 =? n * 95 / 100)%Z &&
             (index_of n 99 =? n * 99 / 100)%Z)
          (seq 1 N).

End Binary64.

(** * Properties *)

(** ** Rounding *)

Section Rounding.

Lemma round_half_even_cases (x : Q) :
  let f := Qfloor x in
  (x - inject_Z f < 1 # 2 /\ Py.round_half_even x = f) \/
  (x - inject_Z f == 1 # 2 /\ (Py.round_half_even x = f \/ Py.round_half_even x = (f + 1)%Z)) \/
  (1 # 2 < x - inject_Z f /\ Py.round_half_even x = (f + 1)%Z).
Proof.
  intro f. unfold Py.round_half_even. fold f.
  destruct (Qcompare_spec (x - inject_Z f) (1 # 2)) as [E | L | G].
  - right. left. split; [exact E |]. destruct (Z.even f); auto.
  - left. auto.
  - right. right. auto.
Qed.

Lemma round_half_even_mono (x y : Q) :
  x <= y -> (Py.round_half_even x <= Py.round_half_even y)%Z.
Proof.
  intro Hxy.
  pose proof (Qfloor_resp_le x y Hxy) as Hfg.
  pose proof (Qfloor_le y) as Hy0. pose proof (Qlt_floor x) as Hx1.
  destruct (Z.eq_dec (Qfloor x) (Qfloor y)) as [E | N].
  - unfold Py.round_half_even. rewrite <- E.
    destruct (Qcompare_spec (x - inject_Z (Qfloor x)) (1 # 2)) as [Ex | Lx | Gx];
      destruct (Qcompare_spec (y - inject_Z (Qfloor x)) (1 # 2)) as [Ey | Ly | Gy];
      try lia; try lra; destruct (Z.even (Qfloor x)); lia.
  - assert (Qfloor x + 1 <= Qfloor y)%Z as Hlt by lia.
    destruct (round_half_even_cases x) as [[_ ->] | [[_ [-> | ->]] | [_ ->]]];
      destruct (round_half_even_cases y) as [[_ ->] | [[_ [-> | ->]] | [_ ->]]]; lia.
Qed.

Lemma round2_mono (x y : Q) : x <= y -> Py.round2 x <= Py.round2 y.
Proof.
  intro Hxy. unfold Py.round2.
  assert (x * 100 <= y * 100) as H100 by lra.
  apply round_half_even_mono in H100. rewrite Zle_Qle in H100.
  apply Qmult_le_compat_r with (z := / 100) in H100; [exact H100 | discriminate].
Qed.

Lemma round2_proper (x y : Q) : x == y -> Py.round2 x == Py.round2 y.
Proof.
  intro E. apply Qle_antisym; apply round2_mono; lra.
Qed.

(** a number of at most two decimals: an integer number of hundredths *)
Definition two_decimals (x : Q) : Prop := exists k : Z, x == inject_Z k / 100.

Lemma round2_two_decimals (x : Q) : two_decimals (Py.round2 x).
Proof.
  exists (Py.round_half_even (x * 100)). reflexivity.
Qed.


(** [reported] is a hundredth nearest to [raw]: a number of two decimals at
    most half a hundredth away.  When [raw] is half-way between two
    hundredths both neighbours qualify. *)
Definition nearest_hundredth (raw reported : Q) : Prop :=
  two_decimals reported /\ Qabs (reported - raw) <= 1 # 200.


(** One request in forty seconds: the exact quotient 1/40 is half-way between
    0.02 and 0.03.  Its float lies above it, so the interpreter reports 0.03;
    the exact tie goes to 0.02.  Both are hundredths nearest to 1/40. *)
Lemma quotient_at_tie :
  1 # 40 < Binary64.to_Q (Binary64.quotient 1 40) /\
  Py.round2 (Binary64.to_Q (Binary64.quotient 1 40)) == 0.03 /\
  Py.round2 (1 # 40) == 0.02 /\
  nearest_hundredth (1 # 40) 0.03 /\ nearest_hundredth (1 # 40) 0.02.
Proof.
  split; [vm_compute; reflexivity |].
  split; [vm_compute; reflexivity |].
  split; [vm_compute; reflexivity |].
  split; (split; [| vm_compute; discriminate]).
  - exists 3%Z. vm_compute. reflexivity.
  - exists 2%Z. vm_compute. reflexivity.
Qed.

Lemma round2_fixpoint (k : Z) : Py.round2 (inject_Z k / 100) == inject_Z k / 100.
Proof.
  unfold Py.round2.
  assert (inject_Z k / 100 * 100 == inject_Z k) as E by (field).
  assert (Py.round_half_even (inject_Z k / 100 * 100) = k) as ->; [| reflexivity].
  assert (Qfloor (inject_Z k / 100 * 100) = k) as F.
  { rewrite (Qfloor_comp _ _ E). apply Qfloor_Z. }
  destruct (round_half_even_cases (inject_Z k / 100 * 100)) as [[_ R] | [[H _] | [H _]]];
    rewrite F in *; [exact R | lra | lra].
Qed.

End Rounding.

(** ** Lists of latencies: sorting, extremes, indexing *)

Section Lists.

Lemma sort_perm (l : list Q) : Permutation l (Py.sort l).
Proof. apply Py.QSort.Permuted_sort. Qed.

Lemma sort_length (l : list Q) : List.length (Py.sort l) = List.length l.
Proof. symmetry. apply Permutation_length, sort_perm. Qed.

Lemma sort_In (l : list Q) (x : Q) : In x (Py.sort l) <-> In x l.
Proof.
  split; intro H.
  - eapply Permutation_in; [apply Permutation_sym, sort_perm | exact H].
  - eapply Permutation_in; [apply sort_perm | exact H].
Qed.

Lemma sort_sorted (l : list Q) : StronglySorted Qle (Py.sort l).
Proof.
  assert (StronglySorted (fun x y => is_true (Qle_bool x y)) (Py.sort l)) as H.
  { apply Py.QSort.StronglySorted_sort.
    intros x y z Hxy Hyz. unfold Py.QOrder.leb, is_true in *.
    rewrite Qle_bool_iff in *. eapply Qle_trans; eassumption. }
  induction H as [| a s Hs IH Ha]; constructor.
  - exact IH.
  - clear - Ha. induction Ha as [| b s Hb _ IH]; constructor.
    + apply Qle_bool_iff. exact Hb.
    + exact IH.
Qed.

Lemma sorted_nth_le (l : list Q) :
  StronglySorted Qle l ->
  forall i j, (i <= j)%nat -> (j < List.length l)%nat -> nth i l 0 <= nth j l 0.
Proof.
  induction 1 as [| a s Hs IH Ha]; intros i j Hij Hj; simpl in Hj.
  - lia.
  - destruct i as [| i], j as [| j]; simpl.
    + apply Qle_refl.
    + rewrite Forall_forall in Ha. apply Ha. apply nth_In. lia.
    + lia.
    + apply IH; lia.
Qed.

Lemma fold_min_spec (l : list Q) (x : Q) :
  let m := fold_left (fun m y => if Qlt_le_dec y m then y else m) l x in
  In m (x :: l) /\ forall y, In y (x :: l) -> m <= y.
Proof.
  revert x. induction l as [| a l IH]; intro x; simpl.
  - split; [left; reflexivity |]. intros y [<- | []]. apply Qle_refl.
  - destruct (Qlt_le_dec a x) as [Hlt | Hle].
    + destruct (IH a) as [Hin Hmin]. split.
      * right. exact Hin.
      * intros y [<- | Hy]; [| apply Hmin; exact Hy].
        apply Qle_trans with a; [apply Hmin; left; reflexivity | apply Qlt_le_weak, Hlt].
    + destruct (IH x) as [Hin Hmin]. split.
      * destruct Hin as [<- | Hin]; [left; reflexivity | right; right; exact Hin].
      * intros y [<- | [<- | Hy]].
        -- apply Hmin. left. reflexivity.
        -- apply Qle_trans with x; [apply Hmin; left; reflexivity | exact Hle].
        -- apply Hmin. right. exact Hy.
Qed.

Lemma fold_max_spec (l : list Q) (x : Q) :
  let m := fold_left (fun m y => if Qlt_le_dec m y then y else m) l x in
  In m (x :: l) /\ forall y, In y (x :: l) -> y <= m.
Proof.
  revert x. induction l as [| a l IH]; intro x; simpl.
  - split; [left; reflexivity |]. intros y [<- | []]. apply Qle_refl.
  - destruct (Qlt_le_dec x a) as [Hlt | Hle].
    + destruct (IH a) as [Hin Hmax]. split.
      * right. exact Hin.
      * intros y [<- | Hy]; [| apply Hmax; exact Hy].
        apply Qle_trans with a; [apply Qlt_le_weak, Hlt | apply Hmax; left; reflexivity].
    + destruct (IH x) as [Hin Hmax]. split.
      * destruct Hin as [<- | Hin]; [left; reflexivity | right; right; exact Hin].
      * intros y [<- | [<- | Hy]].
        -- apply Hmax. left. reflexivity.
        -- apply Qle_trans with x; [exact Hle | apply Hmax; left; reflexivity].
        -- apply Hmax. right. exact Hy.
Qed.

(** [min(l)] of a non-empty list is an element below all the others *)
Lemma min_spec (l : list Q) :
  l <> [] ->
  exists m, Py.min l = Returned m /\ In m l /\ forall y, In y l -> m <= y.
Proof.
  destruct l as [| x l]; [congruence | intros _].
  eexists. split; [reflexivity |]. apply fold_min_spec.
Qed.

Lemma max_spec (l : list Q) :
  l <> [] ->
  exists m, Py.max l = Returned m /\ In m l /\ forall y, In y l -> y <= m.
Proof.
  destruct l as [| x l]; [congruence | intros _].
  eexists. split; [reflexivity |]. apply fold_max_spec.
Qed.

Lemma mean_nonempty (l : list Q) :
  l <> [] -> Py.mean l = Returned (Py.sum l / inject_Z (Py.len l)).
Proof. destruct l; [congruence | reflexivity]. Qed.

Lemma index_in_range (l : list Q) (i : Z) :
  (0 <= i < Py.len l)%Z -> Py.index l i = Returned (nth (Z.to_nat i) l 0).
Proof.
  intros [H0 H1]. unfold Py.index.
  destruct (Z.ltb_spec i 0) as [Hn | _]; [lia |].
  destruct (Z.leb_spec 0 i) as [_ | Hn]; [| lia].
  destruct (Z.ltb_spec i (Py.len l)) as [_ | Hn]; [| lia].
  reflexivity.
Qed.

(** [int(n * p/q)] for a length [n] is the integer quotient *)
Lemma int_scaled (n : Z) (p q : positive) :
  (0 <= n)%Z -> Py.int (inject_Z n * (Zpos p # q)) = (n * Zpos p / Zpos q)%Z.
Proof.
  intro Hn. unfold Py.int.
  assert (Qle_bool 0 (inject_Z n * (Zpos p # q)) = true) as ->.
  { apply Qle_bool_iff. apply Qmult_le_0_compat.
    - change 0 with (inject_Z 0). rewrite <- Zle_Qle. exact Hn.
    - unfold Qle. simpl. lia. }
  unfold Qfloor, Qmult, inject_Z. simpl. reflexivity.
Qed.

(** the three percentile indices of a non-empty list are in range and
    ordered *)
Lemma percentile_indices (n : Z) :
  (0 < n)%Z ->
  (0 <= n * 50 / 100 <= n * 95 / 100)%Z /\
  (n * 95 / 100 <= n * 99 / 100)%Z /\
  (n * 99 / 100 <= n - 1)%Z.
Proof.
  intro Hn. repeat split.
  - apply Z.div_pos; lia.
  - apply Z.div_le_mono; lia.
  - apply Z.div_le_mono; lia.
  - assert (n * 99 / 100 < n)%Z; [| lia].
    apply Z.div_lt_upper_bound; lia.
Qed.

End Lists.

(** ** The statistics block *)

Section Statistics.

Lemma div_nonzero (a b : Q) : ~ b == 0 -> Py.div a b = Returned (a / b).
Proof.
  intro H. unfold Py.div.
  destruct (Qeq_bool b 0) eqn:E; [| reflexivity].
  apply Qeq_bool_iff in E. contradiction.
Qed.

Lemma div_zero (a b : Q) : b == 0 -> Py.div a b = Raised ZeroDivisionError.
Proof.
  intro H. unfold Py.div. apply Qeq_bool_iff in H. rewrite H. reflexivity.
Qed.

Lemma sum_perm (l l' : list Q) : Permutation l l' -> Py.sum l == Py.sum l'.
Proof.
  induction 1 as [| x l l' _ IH | x y l | l l' l'' _ IH1 _ IH2]; simpl.
  - reflexivity.
  - rewrite IH. reflexivity.
  - ring.
  - rewrite IH1. exact IH2.
Qed.

(** the latency the data set has at a sorted position *)
Definition ranked (results : list Q) (i : Z) : Q :=
  nth (Z.to_nat i) (Py.sort results) 0.

(** On a non-empty data set and a non-zero wall time no primitive raises:
    the block returns this record. *)
Lemma calculate_statistics_returns (total errors : Z) (total_time : Q) (results : list Q) :
  results <> [] -> ~ total_time == 0 ->
  exists lo hi,
    Py.min (Py.sort results) = Returned lo /\
    Py.max (Py.sort results) = Returned hi /\
    calculate_statistics total errors total_time results =
    Returned (Some {|
      total_requests := total;
      successful := (total - errors)%Z;
      failed := errors;
      total_time_sec := Py.round2 total_time;
      requests_per_sec := Py.round2 (inject_Z total / total_time);
      avg_response_ms :=
        Py.round2 (Py.sum (Py.sort results) / inject_Z (Py.len (Py.sort results)));
      min_response_ms := Py.round2 lo;
      max_response_ms := Py.round2 hi;
      p50_ms := Py.round2 (ranked results (Py.len results * 50 / 100));
      p95_ms := Py.round2 (ranked results (Py.len results * 95 / 100));
      p99_ms := Py.round2 (ranked results (Py.len results * 99 / 100)) |}).
Proof.
  intros Hne Htime.
  assert (Py.sort results <> []) as Hsne.
  { intro E. apply Hne. apply length_zero_iff_nil.
    rewrite <- sort_length, E. reflexivity. }
  assert (Py.len (Py.sort results) = Py.len results) as Hlen.
  { unfold Py.len. rewrite sort_length. reflexivity. }
  assert (0 < Py.len results)%Z as Hpos.
  { unfold Py.len. destruct results; [congruence | simpl; lia]. }
  destruct (min_spec _ Hsne) as (lo & Hlo & _).
  destruct (max_spec _ Hsne) as (hi & Hhi & _).
  exists lo, hi. split; [exact Hlo |]. split; [exact Hhi |].
  unfold calculate_statistics.
  destruct results as [| x xs]; [congruence |].
  set (rs := x :: xs) in *.
  rewrite (div_nonzero _ _ Htime), (mean_nonempty _ Hsne), Hlo, Hhi. simpl rbind.
  change 0.50 with (50 # 100). change 0.95 with (95 # 100). change 0.99 with (99 # 100).
  rewrite !int_scaled by (rewrite Hlen; lia). rewrite Hlen.
  destruct (percentile_indices _ Hpos) as (H50 & H95 & H99).
  rewrite !index_in_range by (rewrite Hlen; lia).
  reflexivity.
Qed.

(** a zero wall time stops the block at [total / total_time] *)
Lemma calculate_statistics_zero_time (total errors : Z) (total_time : Q) (results : list Q) :
  results <> [] -> total_time == 0 ->
  calculate_statistics total errors total_time results = Raised ZeroDivisionError.
Proof.
  intros Hne Htime. unfold calculate_statistics.
  destruct results; [congruence |]. rewrite (div_zero _ _ Htime). reflexivity.
Qed.

Lemma ranked_In (results : list Q) (i : Z) :
  (0 <= i < Py.len results)%Z -> In (ranked results i) results.
Proof.
  intro Hi. apply sort_In. unfold ranked. apply nth_In.
  rewrite sort_length. unfold Py.len in Hi. lia.
Qed.

Lemma ranked_le (results : list Q) (i j : Z) :
  (0 <= i <= j)%Z -> (j < Py.len results)%Z -> ranked results i <= ranked results j.
Proof.
  intros Hij Hj. unfold ranked. apply sorted_nth_le.
  - apply sort_sorted.
  - lia.
  - rewrite sort_length. unfold Py.len in Hj. lia.
Qed.

End Statistics.

(** ** Percentiles *)

(** The P-th percentile in the words of the specification: the latency at
    index floor(len * P / 100) of the latencies sorted ascending, the index
    clamped to the valid range. *)
Definition nearest_rank (P : Z) (results : list Q) : Q :=
  let n := Py.len results in
  let i := Z.min (Z.max 0 (n * P / 100)) (n - 1) in
  nth (Z.to_nat i) (Py.sort results) 0.

(** the data set of the specification's example *)
Definition sample : list Q := [10; 20; 30; 40; 50; 60; 70; 80; 90; 100].

Lemma nearest_rank_ranked (P : Z) (results : list Q) :
  (0 <= Py.len results * P / 100 <= Py.len results - 1)%Z ->
  nearest_rank P results = ranked results (Py.len results * P / 100).
Proof.
  intro H. unfold nearest_rank, ranked.
  replace (Z.min (Z.max 0 (Py.len results * P / 100)) (Py.len results - 1))
    with (Py.len results * P / 100)%Z by lia.
  reflexivity.
Qed.

Lemma len_pos (results : list Q) : results <> [] -> (0 < Py.len results)%Z.
Proof. unfold Py.len. destruct results; [congruence | simpl; lia]. Qed.

(** C1, as stated, fails: with the single latency 10.3125 ms the reported
    p50 is 10.31, not the element 10.3125 of the sorted data. *)
Lemma percentile_not_raw_element :
  exists st,
    calculate_statistics 1 0 3 [10.3125] = Returned (Some st) /\
    ~ p50_ms st == nearest_rank 50 [10.3125].
Proof.
  eexists. split; [vm_compute; reflexivity |].
  vm_compute. discriminate.
Qed.

(** C1 (amended).  For every non-empty data set (and non-zero wall time, so
    that the block returns) the reported p50, p95 and p99 are the nearest-rank
    percentiles of the data, each rounded to two decimals. *)
Theorem percentile_rounded_nearest_rank
        (total errors : Z) (total_time : Q) (results : list Q) :
  results <> [] -> ~ total_time == 0 ->
  exists st,
    calculate_statistics total errors total_time results = Returned (Some st) /\
    p50_ms st = Py.round2 (nearest_rank 50 results) /\
    p95_ms st = Py.round2 (nearest_rank 95 results) /\
    p99_ms st = Py.round2 (nearest_rank 99 results).
Proof.
  intros Hne Htime.
  destruct (calculate_statistics_returns total errors total_time results Hne Htime)
    as (lo & hi & _ & _ & E).
  destruct (percentile_indices _ (len_pos _ Hne)) as (H50 & H95 & H99).
  eexists. split; [exact E |]. simpl.
  rewrite !nearest_rank_ranked by lia. auto.
Qed.

(** the example of the specification: p50 is 60 ms and p95 is 100 ms *)
Lemma percentile_sample :
  sample <> [] /\ ~ 5 == 0 /\
  exists st,
    calculate_statistics 10 0 5 sample = Returned (Some st) /\
    p50_ms st == 60 /\ p95_ms st == 100.
Proof.
  split; [discriminate |]. split; [discriminate |].
  destruct (percentile_rounded_nearest_rank 10 0 5 sample) as (st & E & H50 & H95 & _);
    [discriminate | discriminate |].
  exists st. split; [exact E |].
  rewrite H50, H95. split; vm_compute; reflexivity.
Defined.

(** C4.  For every non-empty data set the reported latencies are ordered:
    min <= p50 <= p95 <= p99 <= max. *)
Theorem percentile_monotonicity
        (total errors : Z) (total_time : Q) (results : list Q) :
  results <> [] -> ~ total_time == 0 ->
  exists st,
    calculate_statistics total errors total_time results = Returned (Some st) /\
    min_response_ms st <= p50_ms st /\
    p50_ms st <= p95_ms st /\
    p95_ms st <= p99_ms st /\
    p99_ms st <= max_response_ms st.
Proof.
  intros Hne Htime.
  destruct (calculate_statistics_returns total errors total_time results Hne Htime)
    as (lo & hi & Hlo & Hhi & E).
  pose proof (len_pos _ Hne) as Hpos.
  destruct (percentile_indices _ Hpos) as (H50 & H95 & H99).
  assert (Py.sort results <> []) as Hsne.
  { intro E'. apply Hne. apply length_zero_iff_nil. rewrite <- sort_length, E'. reflexivity. }
  destruct (min_spec _ Hsne) as (lo' & Hlo' & _ & Hmin).
  destruct (max_spec _ Hsne) as (hi' & Hhi' & _ & Hmax).
  rewrite Hlo in Hlo'. injection Hlo' as <-.
  rewrite Hhi in Hhi'. injection Hhi' as <-.
  eexists. split; [exact E |]. simpl.
  repeat split; apply round2_mono.
  - apply Hmin. apply sort_In. apply ranked_In. lia.
  - apply ranked_le; lia.
  - apply ranked_le; lia.
  - apply Hmax. apply sort_In. apply ranked_In. lia.
Qed.

Lemma percentile_monotonicity_sample :
  sample <> [] /\ ~ 5 == 0 /\
  exists st,
    calculate_statistics 10 0 5 sample = Returned (Some st) /\
    min_response_ms st <= p50_ms st /\
    p50_ms st <= p95_ms st /\
    p95_ms st <= p99_ms st /\
    p99_ms st <= max_response_ms st.
Proof.
  split; [discriminate |]. split; [discriminate |].
  apply (percentile_monotonicity 10 0 5 sample); discriminate.
Defined.

(** ** Every reported number, in terms of the data *)

(** the arithmetic mean, in the words of the specification *)
Definition arithmetic_mean (l : list Q) : Q := Py.sum l / inject_Z (Py.len l).

(** [m] is the smallest (largest) latency of the data set *)
Definition smallest (l : list Q) (m : Q) : Prop := In m l /\ forall y, In y l -> m <= y.
Definition largest (l : list Q) (m : Q) : Prop := In m l /\ forall y, In y l -> y <= m.

Lemma calculate_statistics_fields
      (total errors : Z) (total_time : Q) (results : list Q) :
  results <> [] -> ~ total_time == 0 ->
  exists st lo hi,
    calculate_statistics total errors total_time results = Returned (Some st) /\
    smallest results lo /\ largest results hi /\
    total_requests st = total /\
    successful st = (total - errors)%Z /\
    failed st = errors /\
    total_time_sec st = Py.round2 total_time /\
    requests_per_sec st = Py.round2 (inject_Z total / total_time) /\
    avg_response_ms st == Py.round2 (arithmetic_mean results) /\
    min_response_ms st = Py.round2 lo /\
    max_response_ms st = Py.round2 hi /\
    p50_ms st = Py.round2 (nearest_rank 50 results) /\
    p95_ms st = Py.round2 (nearest_rank 95 results) /\
    p99_ms st = Py.round2 (nearest_rank 99 results).
Proof.
  intros Hne Htime.
  destruct (calculate_statistics_returns total errors total_time results Hne Htime)
    as (lo & hi & Hlo & Hhi & E).
  destruct (percentile_indices _ (len_pos _ Hne)) as (H50 & H95 & H99).
  assert (Py.sort results <> []) as Hsne.
  { intro E'. apply Hne. apply length_zero_iff_nil. rewrite <- sort_length, E'. reflexivity. }
  destruct (min_spec _ Hsne) as (lo' & Hlo' & Hlo_in & Hmin).
  destruct (max_spec _ Hsne) as (hi' & Hhi' & Hhi_in & Hmax).
  rewrite Hlo in Hlo'. injection Hlo' as <-.
  rewrite Hhi in Hhi'. injection Hhi' as <-.
  eexists. exists lo, hi. split; [exact E |]. simpl.
  split; [| split].
  - split; [apply sort_In; exact Hlo_in |]. intros y Hy. apply Hmin, sort_In, Hy.
  - split; [apply sort_In; exact Hhi_in |]. intros y Hy. apply Hmax, sort_In, Hy.
  - rewrite !nearest_rank_ranked by lia. repeat split.
    apply round2_proper. unfold arithmetic_mean, Py.len.
    rewrite sort_length, <- (sum_perm _ _ (sort_perm results)). reflexivity.
Qed.

(** whenever a record is returned, its two counts add up to the total *)
Lemma counts_add_up (total errors : Z) (total_time : Q) (results : list Q) (st : stats) :
  calculate_statistics total errors total_time results = Returned (Some st) ->
  (successful st + failed st = total_requests st)%Z.
Proof.
  intro E. destruct results as [| x xs]; [discriminate |].
  destruct (Qeq_dec total_time 0) as [Z0 | N0].
  - rewrite calculate_statistics_zero_time in E; [discriminate | discriminate | exact Z0].
  - destruct (calculate_statistics_fields total errors total_time (x :: xs))
      as (st' & _ & _ & E' & _ & _ & Ht & Hs & Hf & _); [discriminate | exact N0 |].
    rewrite E in E'. injection E' as <-. lia.
Qed.

(** rounding twice changes nothing *)
Lemma round2_idempotent (x : Q) : Py.round2 (Py.round2 x) == Py.round2 x.
Proof.
  destruct (round2_two_decimals x) as (k & Hk).
  rewrite (round2_proper _ _ Hk), round2_fixpoint. symmetry. exact Hk.
Qed.

(** ** The collection loop *)

Definition failures (futures : list outcome) : Z :=
  Z.of_nat (List.length (filter (fun o => negb (success o)) futures)).

Lemma collect_spec (futures : list outcome) (results : list Q) (errors : Z) :
  collect futures results errors =
  (results ++ map time futures, (errors + failures futures)%Z).
Proof.
  revert results errors. unfold failures.
  induction futures as [| o rest IH]; intros results errors; simpl.
  - rewrite app_nil_r. f_equal. lia.
  - rewrite IH, <- app_assoc. simpl. f_equal.
    destruct (success o); simpl; lia.
Qed.




(** ** Rounding of the returned record *)





(** ** make_request *)

(** the latency [make_request] measures, in milliseconds *)
Definition elapsed_ms (o : request_obs) : Q := (t_finish o - t_begin o) * 1000.

(** the dict [make_request] builds from what it observes *)
Definition outcome_of (o : request_obs) : outcome :=
  match reply o with
  | Returned r =>
      {| success := (status_code r =? 200)%Z; time := elapsed_ms o;
         status := StatusCode (status_code r); error := None |}
  | Raised e =>
      {| success := false; time := elapsed_ms o;
         status := StatusError; error := Some (str e) |}
  end.

Lemma make_request_eq (url : string) (o : request_obs) (w : list string) :
  make_request url o w = (Returned (outcome_of o), w ++ [url]).
Proof.
  unfold make_request, try_except, bind, requests_get, ret, outcome_of, elapsed_ms.
  destruct (reply o); reflexivity.
Qed.

(** C2.  [make_request] never raises: whatever the network does, it returns
    an outcome; the outcome is a success exactly when a response came back
    with status code 200; and the elapsed time in milliseconds is recorded in
    every case. *)
Theorem make_request_total (url : string) (o : request_obs) (w : list string) :
  exists out,
    make_request url o w = (Returned out, w ++ [url]) /\
    (success out = true <-> exists r, reply o = Returned r /\ status_code r = 200%Z) /\
    time out = (t_finish o - t_begin o) * 1000.
Proof.
  exists (outcome_of o). split; [apply make_request_eq |].
  unfold outcome_of, elapsed_ms. destruct (reply o) as [r | e]; simpl; split; try reflexivity.
  - rewrite Z.eqb_eq. split.
    + intro H. exists r. split; [reflexivity | exact H].
    + intros (r' & E & H). injection E as <-. exact H.
  - split; [discriminate |]. intros (r & E & _). discriminate.
Qed.

(** ** run_load_test *)

Lemma mapM_make_request (url : string) (obs : nat -> request_obs)
      (ks : list nat) (w : list string) :
  mapM (fun k => make_request url (obs k)) ks w =
  (Returned (map (fun k => outcome_of (obs k)) ks), w ++ repeat url (List.length ks)).
Proof.
  revert w. induction ks as [| k ks IH]; intro w; simpl.
  - unfold ret. rewrite app_nil_r. reflexivity.
  - unfold bind at 1. rewrite make_request_eq.
    unfold bind at 1. rewrite IH. unfold ret.
    rewrite <- app_assoc. reflexivity.
Qed.

(** the outcomes of a run, in completion order *)
Definition outcomes (env : run_env) (total : Z) : list outcome :=
  map (fun k => outcome_of (completed env k)) (range total).

(** the wall time of a run, in seconds *)
Definition wall_time (env : run_env) : Q := end_clock env - start_clock env.

(** With a pool of at least one worker the run issues [total] requests and
    hands all their latencies to the statistics block. *)
Lemma run_load_test_eq (endpoint name : string) (concurrent total : Z)
      (env : run_env) (w : list string) :
  (0 < concurrent)%Z ->
  run_load_test endpoint name concurrent total env w =
  (calculate_statistics total (failures (outcomes env total)) (wall_time env)
                        (map time (outcomes env total)),
   w ++ repeat (BASE_URL ++ endpoint)%string (Z.to_nat total)).
Proof.
  intro Hc. unfold run_load_test, ThreadPoolExecutor.
  destruct (Z.leb_spec concurrent 0) as [Hn | _]; [lia |].
  unfold bind at 1. unfold ret at 1.
  unfold bind at 1. rewrite mapM_make_request.
  fold (outcomes env total). rewrite collect_spec. simpl.
  unfold lift, range. rewrite length_seq. reflexivity.
Qed.

Lemma outcomes_nonempty (env : run_env) (total : Z) :
  (0 < total)%Z -> map time (outcomes env total) <> [].
Proof.
  intro Ht. unfold outcomes, range.
  destruct (Z.to_nat total) as [| n] eqn:E; [lia | discriminate].
Qed.

(** an environment for the examples: every request answers 200 after one
    second, the run takes three seconds *)
Definition steady : run_env :=
  {| start_clock := 0; end_clock := 3;
     completed := fun _ =>
       {| t_begin := 0; reply := Returned {| status_code := 200 |}; t_finish := 1 |} |}.

(** C7, as stated, fails: with [total = 0] and a valid pool size the run
    raises nothing; it returns [None] without issuing a request. *)
Lemma zero_total_no_error :
  run_load_test "/api/async/users" "ASYNC - Get Users" 100 0 steady [] =
  (Returned None, []).
Proof. vm_compute. reflexivity. Qed.

(** C7 (amended).  For every configuration with total_requests <= 0 or
    concurrency <= 0 no request is issued and no statistics are produced:
    with concurrency <= 0 the run fails with the [ValueError] of the pool
    constructor, otherwise it returns [None] without an error. *)
Theorem invalid_config_no_request (endpoint name : string) (concurrent total : Z)
        (env : run_env) (w : list string) :
  (total <= 0)%Z \/ (concurrent <= 0)%Z ->
  run_load_test endpoint name concurrent total env w =
  (if (concurrent <=? 0)%Z
   then Raised (ValueError "max_workers must be greater than 0")
   else Returned None,
   w).
Proof.
  intro H. destruct (Z.leb_spec concurrent 0) as [Hc | Hc].
  - unfold run_load_test, ThreadPoolExecutor.
    destruct (Z.leb_spec concurrent 0) as [_ | Hn]; [| lia]. reflexivity.
  - rewrite run_load_test_eq by exact Hc.
    assert (Z.to_nat total = 0%nat) as E by lia.
    unfold outcomes, range. rewrite E. simpl. rewrite app_nil_r. reflexivity.
Qed.

Lemma invalid_config_no_request_sample :
  ((5 <= 0)%Z \/ (0 <= 0)%Z) /\
  run_load_test "/api/sync/users" "SYNC - Get Users" 0 5 steady [] =
  (Raised (ValueError "max_workers must be greater than 0"), []).
Proof.
  split; [right; lia |].
  apply (invalid_config_no_request "/api/sync/users" "SYNC - Get Users" 0 5 steady []).
  right. lia.
Defined.

(** ** Throughput *)





(** ** Comparison *)

Lemma compare_returns (async_stats sync_stats : stats) :
  ~ requests_per_sec sync_stats == 0 -> ~ avg_response_ms sync_stats == 0 ->
  compare async_stats sync_stats =
  Returned {|
    throughput_improvement :=
      (requests_per_sec async_stats - requests_per_sec sync_stats)
      / requests_per_sec sync_stats * 100;
    faster_by :=
      (avg_response_ms sync_stats - avg_response_ms async_stats)
      / avg_response_ms sync_stats * 100 |}.
Proof.
  intros Hr Ha. unfold compare.
  rewrite (div_nonzero _ _ Hr), (div_nonzero _ _ Ha). reflexivity.
Qed.

(** a statistics record with the given throughput and mean latency *)
Definition stats_with (rps avg : Q) : stats :=
  {| total_requests := 500; successful := 500; failed := 0;
     total_time_sec := 5; requests_per_sec := rps;
     avg_response_ms := avg; min_response_ms := avg; max_response_ms := avg;
     p50_ms := avg; p95_ms := avg; p99_ms := avg |}.

(** C5.  With non-zero baseline values the comparison computes
    (candidate.rps - baseline.rps) / baseline.rps * 100 and
    (baseline.avg - candidate.avg) / baseline.avg * 100, the candidate being
    the async record and the baseline the sync one; for positive baselines
    the throughput delta is positive exactly when the candidate is higher and
    the latency delta exactly when the candidate is faster. *)
Theorem comparison_deltas (candidate baseline : stats) :
  ~ requests_per_sec baseline == 0 -> ~ avg_response_ms baseline == 0 ->
  exists c,
    compare candidate baseline = Returned c /\
    throughput_improvement c =
      (requests_per_sec candidate - requests_per_sec baseline)
      / requests_per_sec baseline * 100 /\
    faster_by c =
      (avg_response_ms baseline - avg_response_ms candidate)
      / avg_response_ms baseline * 100 /\
    (0 < requests_per_sec baseline ->
     (0 < throughput_improvement c <->
      requests_per_sec baseline < requests_per_sec candidate)) /\
    (0 < avg_response_ms baseline ->
     (0 < faster_by c <-> avg_response_ms candidate < avg_response_ms baseline)).
Proof.
  intros Hr Ha. eexists. split; [apply compare_returns; assumption |]. simpl.
  split; [reflexivity |]. split; [reflexivity |].
  assert (forall a b, 0 < b -> (0 < (a - b) / b * 100 <-> b < a)) as Hsign.
  { intros a b Hb. split; intro H.
    - destruct (Qlt_le_dec b a) as [L | G]; [exact L | exfalso].
      assert ((a - b) / b * 100 <= 0) as Hn; [| lra].
      assert ((a - b) / b * 100 == - ((b - a) * 100 * / b)) as -> by (field; lra).
      assert (0 <= (b - a) * 100 * / b); [| lra].
      apply Qmult_le_0_compat; [lra |]. apply Qlt_le_weak, Qinv_lt_0_compat, Hb.
    - assert ((a - b) / b * 100 == (a - b) * 100 * / b) as -> by (field; lra).
      apply Qmult_lt_0_compat; [lra |]. apply Qinv_lt_0_compat, Hb. }
  split.
  - intro Hb. apply Hsign. exact Hb.
  - intro Hb. split; intro H.
    + destruct (Qlt_le_dec (avg_response_ms candidate) (avg_response_ms baseline)) as [L | G];
        [exact L | exfalso].
      set (a := avg_response_ms candidate) in *. set (b := avg_response_ms baseline) in *.
      assert ((b - a) / b * 100 <= 0) as Hn; [| lra].
      assert ((b - a) / b * 100 == - ((a - b) * 100 * / b)) as -> by (field; lra).
      assert (0 <= (a - b) * 100 * / b); [| lra].
      apply Qmult_le_0_compat; [lra |]. apply Qlt_le_weak, Qinv_lt_0_compat, Hb.
    + set (a := avg_response_ms candidate) in *. set (b := avg_response_ms baseline) in *.
      assert ((b - a) / b * 100 == (b - a) * 100 * / b) as -> by (field; lra).
      apply Qmult_lt_0_compat; [lra |]. apply Qinv_lt_0_compat, Hb.
Qed.

(** the example of the specification: baseline 100 and candidate 150
    requests per second give +50.0 *)
Lemma comparison_deltas_sample :
  ~ requests_per_sec (stats_with 100 20) == 0 /\
  ~ avg_response_ms (stats_with 100 20) == 0 /\
  exists c,
    compare (stats_with 150 10) (stats_with 100 20) = Returned c /\
    throughput_improvement c == 50.0 /\ faster_by c == 50.0.
Proof.
  split; [discriminate |]. split; [discriminate |].
  destruct (comparison_deltas (stats_with 150 10) (stats_with 100 20))
    as (c & E & Ht & Hf & _); [discriminate | discriminate |].
  exists c. split; [exact E |]. rewrite Ht, Hf. split; vm_compute; reflexivity.
Defined.

(** C6, as stated, fails: with a baseline of 0 requests per second the
    comparison raises [ZeroDivisionError]; no delta is reported. *)
Lemma zero_baseline_raises :
  compare (stats_with 150 10) (stats_with 0 20) = Raised ZeroDivisionError.
Proof. vm_compute. reflexivity. Qed.

(** C6 (amended).  For every comparison in which the baseline's
    requests-per-second or average latency is zero, the division is not
    guarded: the comparison raises [ZeroDivisionError] and reports no value
    for the deltas. *)
Theorem zero_baseline_division (candidate baseline : stats) :
  requests_per_sec baseline == 0 \/ avg_response_ms baseline == 0 ->
  compare candidate baseline = Raised ZeroDivisionError.
Proof.
  intro H. unfold compare.
  destruct (Qeq_dec (requests_per_sec baseline) 0) as [Z0 | N0].
  - rewrite (div_zero _ _ Z0). reflexivity.
  - destruct H as [H | H]; [contradiction |].
    rewrite (div_nonzero _ _ N0), (div_zero _ _ H). reflexivity.
Qed.

Lemma zero_baseline_division_sample :
  (requests_per_sec (stats_with 80 0) == 0 \/ avg_response_ms (stats_with 80 0) == 0) /\
  compare (stats_with 150 10) (stats_with 80 0) = Raised ZeroDivisionError.
Proof.
  split; [right; reflexivity |].
  apply (zero_baseline_division (stats_with 150 10) (stats_with 80 0)).
  right. reflexivity.
Defined.

(** ** The loop over the endpoint pairs *)

(** a pair is compared only when both runs produced statistics *)
Lemma compare_all_skips_missing (async_orders sync_users sync_orders : option stats) :
  compare_all (all_results_of None async_orders sync_users sync_orders) comparisons =
  compare_all (all_results_of None async_orders sync_users sync_orders)
              [("Orders Endpoint", "async_orders", "sync_orders")%string].
Proof. reflexivity. Qed.

(** the division error of one pair ends the loop *)
Lemma compare_all_propagates (a b : stats) (async_orders sync_orders : option stats) :
  compare a b = Raised ZeroDivisionError ->
  compare_all (all_results_of (Some a) async_orders (Some b) sync_orders) comparisons =
  Raised ZeroDivisionError.
Proof.
  intro H. unfold comparisons. simpl. rewrite H. reflexivity.
Qed.

(** ** Agreement of the indices with binary64 *)

(** For every data set of up to 2000 latencies (four times
    [TOTAL_REQUESTS]) the three indices computed in binary64 are the ones of
    the exact model. *)
Lemma binary64_indices (n : Z) :
  (1 <= n <= 2000)%Z ->
  Binary64.index_of n 50 = Py.int (inject_Z n * 0.50) /\
  Binary64.index_of n 95 = Py.int (inject_Z n * 0.95) /\
  Binary64.index_of n 99 = Py.int (inject_Z n * 0.99).
Proof.
  intro Hn.
  assert (Binary64.indices_agree 2000 = true) as H by (vm_compute; reflexivity).
  unfold Binary64.indices_agree in H. rewrite forallb_forall in H.
  specialize (H (Z.to_nat n)).
  rewrite Z2Nat.id in H by lia.
  assert (In (Z.to_nat n) (seq 1 2000)) as Hin by (apply in_seq; lia).
  apply H in Hin. apply andb_prop in Hin as [Hin H99]. apply andb_prop in Hin as [H50 H95].
  apply Z.eqb_eq in H50, H95, H99.
  change 0.50 with (50 # 100). change 0.95 with (95 # 100). change 0.99 with (99 # 100).
  rewrite !int_scaled by lia. auto.
Qed.

(** the literals are the doubles the interpreter reads *)
Lemma binary64_literals :
  Binary64.literal 50 = S754_finite false 4503599627370496 (-53) /\
  Binary64.literal 95 = S754_finite false 8556839292003942 (-53) /\
  Binary64.literal 99 = S754_finite false 8917127262193582 (-53).
Proof. repeat split; vm_compute; reflexivity. Qed.

(** * Further properties of the harness *)

(** ** What a returned record says about its data *)

(** a record is only returned for a non-empty data set and a non-zero wall
    time *)
Lemma calculate_statistics_inv (total errors : Z) (total_time : Q) (results : list Q)
      (st : stats) :
  calculate_statistics total errors total_time results = Returned (Some st) ->
  results <> [] /\ ~ total_time == 0.
Proof.
  intro E. destruct results as [| x xs]; [discriminate |].
  split; [discriminate |]. intro Z0.
  rewrite calculate_statistics_zero_time in E; [discriminate | discriminate | exact Z0].
Qed.

Lemma sum_lower (l : list Q) (a : Q) :
  (forall x, In x l -> a <= x) -> a * inject_Z (Py.len l) <= Py.sum l.
Proof.
  unfold Py.len. induction l as [| x l IH]; intro H.
  - simpl. change (inject_Z 0) with 0. lra.
  - change (List.length (x :: l)) with (S (List.length l)).
    rewrite Nat2Z.inj_succ. unfold Z.succ. rewrite inject_Z_plus. simpl Py.sum.
    assert (a <= x) by (apply H; left; reflexivity).
    assert (a * inject_Z (Z.of_nat (List.length l)) <= Py.sum l)
      by (apply IH; intros y Hy; apply H; right; exact Hy).
    change (inject_Z 1) with 1. lra.
Qed.

Lemma sum_upper (l : list Q) (b : Q) :
  (forall x, In x l -> x <= b) -> Py.sum l <= b * inject_Z (Py.len l).
Proof.
  unfold Py.len. induction l as [| x l IH]; intro H.
  - simpl. change (inject_Z 0) with 0. lra.
  - change (List.length (x :: l)) with (S (List.length l)).
    rewrite Nat2Z.inj_succ. unfold Z.succ. rewrite inject_Z_plus. simpl Py.sum.
    assert (x <= b) by (apply H; left; reflexivity).
    assert (Py.sum l <= b * inject_Z (Z.of_nat (List.length l)))
      by (apply IH; intros y Hy; apply H; right; exact Hy).
    change (inject_Z 1) with 1. lra.
Qed.

Lemma mean_bounds (l : list Q) (a b : Q) :
  l <> [] -> (forall x, In x l -> a <= x <= b) ->
  a <= arithmetic_mean l <= b.
Proof.
  intros Hne H. unfold arithmetic_mean.
  assert (0 < inject_Z (Py.len l)) as Hn.
  { change 0 with (inject_Z 0). rewrite <- Zlt_Qlt. apply len_pos, Hne. }
  split.
  - apply Qle_shift_div_l; [exact Hn |]. apply sum_lower. intros x Hx. apply H, Hx.
  - apply Qle_shift_div_r; [exact Hn |]. apply sum_upper. intros x Hx. apply H, Hx.
Qed.

(** If every latency of the data lies between [a] and [b], so does every
    latency the record reports, up to the rounding of the two bounds. *)
Theorem statistics_within_data_range
        (total errors : Z) (total_time : Q) (results : list Q) (st : stats) (a b : Q) :
  calculate_statistics total errors total_time results = Returned (Some st) ->
  (forall x, In x results -> a <= x <= b) ->
  let within v := Py.round2 a <= v <= Py.round2 b in
  within (avg_response_ms st) /\ within (min_response_ms st) /\
  within (max_response_ms st) /\ within (p50_ms st) /\
  within (p95_ms st) /\ within (p99_ms st).
Proof.
  intros E H within.
  destruct (calculate_statistics_inv _ _ _ _ _ E) as (Hne & Htime).
  destruct (calculate_statistics_fields total errors total_time results Hne Htime)
    as (st' & lo & hi & E' & (Hlo & _) & (Hhi & _) & _ & _ & _ & _ & _
        & Havg & Hmin & Hmax & H50 & H95 & H99).
  rewrite E in E'. injection E' as <-.
  pose proof (len_pos _ Hne) as Hpos.
  destruct (percentile_indices _ Hpos) as (I50 & I95 & I99).
  assert (forall v, a <= v <= b -> within (Py.round2 v)) as Hw.
  { intros v [Ha Hb]. split; apply round2_mono; assumption. }
  unfold within in *. rewrite Havg, Hmin, Hmax, H50, H95, H99.
  rewrite !nearest_rank_ranked by lia.
  repeat split; try (apply Hw, H; assumption);
    try (apply Hw, H, ranked_In; lia);
    apply Hw, mean_bounds; assumption.
Qed.

Lemma statistics_within_data_range_sample :
  exists st,
    calculate_statistics 10 0 5 sample = Returned (Some st) /\
    (forall x, In x sample -> 10 <= x <= 100) /\
    10 <= avg_response_ms st <= 100 /\ 10 <= p99_ms st <= 100.
Proof.
  eexists. split; [vm_compute; reflexivity |].
  assert (forall x, In x sample -> 10 <= x <= 100) as H.
  { intros x Hx. unfold sample in Hx. simpl in Hx.
    repeat (destruct Hx as [<- | Hx]; [split; discriminate |]). contradiction. }
  split; [exact H |].
  destruct (statistics_within_data_range 10 0 5 sample _ 10 100 eq_refl H)
    as (Havg & _ & _ & _ & _ & H99).
  split; [exact Havg | exact H99].
Defined.

(** The reported average lies between the reported minimum and maximum. *)
Theorem average_between_extremes
        (total errors : Z) (total_time : Q) (results : list Q) (st : stats) :
  calculate_statistics total errors total_time results = Returned (Some st) ->
  min_response_ms st <= avg_response_ms st <= max_response_ms st.
Proof.
  intro E.
  destruct (calculate_statistics_inv _ _ _ _ _ E) as (Hne & Htime).
  destruct (calculate_statistics_fields total errors total_time results Hne Htime)
    as (st' & lo & hi & E' & (_ & Hlo) & (_ & Hhi) & _ & _ & _ & _ & _
        & Havg & Hmin & Hmax & _).
  rewrite E in E'. injection E' as <-.
  rewrite Havg, Hmin, Hmax.
  destruct (mean_bounds results lo hi Hne) as [H1 H2].
  { intros x Hx. split; [apply Hlo | apply Hhi]; exact Hx. }
  split; apply round2_mono; assumption.
Qed.

Lemma average_between_extremes_sample :
  exists st,
    calculate_statistics 3 1 2 [10.3125; 250; 20.6875] = Returned (Some st) /\
    min_response_ms st <= avg_response_ms st <= max_response_ms st.
Proof.
  eexists. split; [vm_compute; reflexivity |].
  apply (average_between_extremes 3 1 2 [10.3125; 250; 20.6875] _ eq_refl).
Defined.

(** ** The tail percentiles of a small data set *)

(** the last sorted position holds a largest latency *)
Lemma ranked_last_largest (results : list Q) :
  results <> [] -> largest results (ranked results (Py.len results - 1)).
Proof.
  intro Hne. pose proof (len_pos _ Hne) as Hpos. split.
  - apply ranked_In. lia.
  - intros y Hy. apply sort_In in Hy.
    destruct (In_nth _ _ 0 Hy) as (j & Hj & <-).
    rewrite sort_length in Hj. unfold ranked. apply sorted_nth_le.
    + apply sort_sorted.
    + unfold Py.len in *. lia.
    + rewrite sort_length. unfold Py.len in *. lia.
Qed.

Lemma largest_unique (l : list Q) (a b : Q) : largest l a -> largest l b -> a == b.
Proof.
  intros [Ha Ha'] [Hb Hb']. apply Qle_antisym; [apply Hb', Ha | apply Ha', Hb].
Qed.

(** With at most 100 latencies the reported p99 is the reported maximum, and
    with at most 20 so is the reported p95. *)
Theorem small_sample_tail
        (total errors : Z) (total_time : Q) (results : list Q) (st : stats) :
  calculate_statistics total errors total_time results = Returned (Some st) ->
  ((Py.len results <= 100)%Z -> p99_ms st == max_response_ms st) /\
  ((Py.len results <= 20)%Z -> p95_ms st == max_response_ms st).
Proof.
  intro E.
  destruct (calculate_statistics_inv _ _ _ _ _ E) as (Hne & Htime).
  destruct (calculate_statistics_fields total errors total_time results Hne Htime)
    as (st' & lo & hi & E' & _ & Hhi & _ & _ & _ & _ & _ & _ & _ & Hmax & _ & H95 & H99).
  rewrite E in E'. injection E' as <-.
  pose proof (len_pos _ Hne) as Hpos.
  destruct (percentile_indices _ Hpos) as (I50 & I95 & I99).
  pose proof (ranked_last_largest _ Hne) as Hlast.
  rewrite H95, H99, Hmax. rewrite !nearest_rank_ranked by lia.
  split; intro Hn; apply round2_proper.
  - replace (Py.len results * 99 / 100)%Z with (Py.len results - 1)%Z.
    + apply (largest_unique results); assumption.
    + apply Z.div_unique with (r := (100 - Py.len results)%Z); lia.
  - replace (Py.len results * 95 / 100)%Z with (Py.len results - 1)%Z.
    + apply (largest_unique results); assumption.
    + apply Z.div_unique with (r := (100 - 5 * Py.len results)%Z); lia.
Qed.

Lemma small_sample_tail_sample :
  exists st,
    calculate_statistics 10 0 5 sample = Returned (Some st) /\
    p99_ms st == max_response_ms st /\ p95_ms st == max_response_ms st.
Proof.
  eexists. split; [vm_compute; reflexivity |].
  destruct (small_sample_tail 10 0 5 sample _ eq_refl) as [H99 H95].
  split; [apply H99 | apply H95]; vm_compute; discriminate.
Defined.

(** ** The order of completion does not matter *)

(** the number of latencies not above [x] *)
Definition count_le (x : Q) (l : list Q) : nat :=
  List.length (filter (fun z => Qle_bool z x) l).

Lemma count_le_perm (x : Q) (l l' : list Q) :
  Permutation l l' -> count_le x l = count_le x l'.
Proof.
  unfold count_le. induction 1 as [| y l l' _ IH | y z l | l l' l'' _ IH1 _ IH2]; simpl.
  - reflexivity.
  - destruct (Qle_bool y x); simpl; congruence.
  - destruct (Qle_bool y x), (Qle_bool z x); reflexivity.
  - congruence.
Qed.

Lemma count_le_lower (s : list Q) :
  StronglySorted Qle s ->
  forall i x, (i < List.length s)%nat -> nth i s 0 <= x -> (i < count_le x s)%nat.
Proof.
  unfold count_le. induction 1 as [| a s Hs IH Ha]; intros i x Hi Hx; simpl in *.
  - lia.
  - rewrite Forall_forall in Ha. destruct i as [| i].
    + apply Qle_bool_iff in Hx. rewrite Hx. simpl. lia.
    + assert (a <= x) as Hax.
      { apply Qle_trans with (nth i s 0); [apply Ha, nth_In; lia | exact Hx]. }
      apply Qle_bool_iff in Hax. rewrite Hax. simpl.
      apply -> Nat.succ_lt_mono. apply IH; [lia | exact Hx].
Qed.

Lemma count_le_none (x : Q) (s : list Q) :
  (forall y, In y s -> x < y) -> count_le x s = 0%nat.
Proof.
  unfold count_le. induction s as [| b s IH]; intro H; [reflexivity |]. simpl.
  assert (Qle_bool b x = false) as ->.
  { destruct (Qle_bool b x) eqn:E; [| reflexivity].
    apply Qle_bool_iff in E. assert (x < b) by (apply H; left; reflexivity). lra. }
  apply IH. intros y Hy. apply H. right. exact Hy.
Qed.

Lemma count_le_cons (x a : Q) (s : list Q) :
  (count_le x (a :: s) <= S (count_le x s))%nat.
Proof.
  unfold count_le. simpl. destruct (Qle_bool a x); simpl; lia.
Qed.

Lemma count_le_upper (s : list Q) :
  StronglySorted Qle s ->
  forall i x, (i < List.length s)%nat -> x < nth i s 0 -> (count_le x s <= i)%nat.
Proof.
  induction 1 as [| a s Hs IH Ha]; intros i x Hi Hx.
  - simpl in Hi. lia.
  - rewrite Forall_forall in Ha. destruct i as [| i]; simpl in Hi, Hx.
    + rewrite count_le_none; [lia |].
      intros y [<- | Hy]; [exact Hx |].
      apply Qlt_le_trans with a; [exact Hx | apply Ha, Hy].
    + pose proof (count_le_cons x a s) as Hc.
      assert (count_le x s <= i)%nat by (apply IH; [lia | exact Hx]). lia.
Qed.

(** two sorted arrangements of the same data agree position by position *)
Lemma sorted_perm_nth (s t : list Q) (i : nat) :
  StronglySorted Qle s -> StronglySorted Qle t -> Permutation s t ->
  (i < List.length s)%nat -> nth i s 0 == nth i t 0.
Proof.
  intros Hs Ht Hp Hi.
  assert (i < List.length t)%nat as Hi' by (rewrite <- (Permutation_length Hp); exact Hi).
  destruct (Q_dec (nth i s 0) (nth i t 0)) as [[L | G] | E]; [exfalso | exfalso | exact E].
  - pose proof (count_le_lower s Hs i (nth i s 0) Hi (Qle_refl _)) as H1.
    pose proof (count_le_upper t Ht i (nth i s 0) Hi' L) as H2.
    rewrite (count_le_perm _ _ _ Hp) in H1. lia.
  - pose proof (count_le_lower t Ht i (nth i t 0) Hi' (Qle_refl _)) as H1.
    pose proof (count_le_upper s Hs i (nth i t 0) Hi G) as H2.
    rewrite (count_le_perm _ _ _ Hp) in H2. lia.
Qed.

Lemma ranked_perm (results results' : list Q) (i : Z) :
  Permutation results results' -> (0 <= i < Py.len results)%Z ->
  ranked results i == ranked results' i.
Proof.
  intros Hp Hi. unfold ranked. apply sorted_perm_nth.
  - apply sort_sorted.
  - apply sort_sorted.
  - eapply Permutation_trans; [apply Permutation_sym, sort_perm |].
    eapply Permutation_trans; [exact Hp | apply sort_perm].
  - rewrite sort_length. unfold Py.len in Hi. lia.
Qed.

Lemma smallest_unique (l : list Q) (a b : Q) : smallest l a -> smallest l b -> a == b.
Proof.
  intros [Ha Ha'] [Hb Hb']. apply Qle_antisym; [apply Ha', Hb | apply Hb', Ha].
Qed.

(** two records that report the same numbers *)
Definition same_statistics (a b : stats) : Prop :=
  total_requests a = total_requests b /\ successful a = successful b /\
  failed a = failed b /\
  total_time_sec a == total_time_sec b /\ requests_per_sec a == requests_per_sec b /\
  avg_response_ms a == avg_response_ms b /\
  min_response_ms a == min_response_ms b /\ max_response_ms a == max_response_ms b /\
  p50_ms a == p50_ms b /\ p95_ms a == p95_ms b /\ p99_ms a == p99_ms b.

(** The statistics depend on which latencies were collected, not on the order
    in which the requests completed: a reordered data set gives a record with
    the same numbers. *)
Theorem statistics_order_independent
        (total errors : Z) (total_time : Q) (results results' : list Q) (st : stats) :
  Permutation results results' ->
  calculate_statistics total errors total_time results = Returned (Some st) ->
  exists st',
    calculate_statistics total errors total_time results' = Returned (Some st') /\
    same_statistics st st'.
Proof.
  intros Hp E.
  destruct (calculate_statistics_inv _ _ _ _ _ E) as (Hne & Htime).
  assert (results' <> []) as Hne'.
  { intro E0. subst results'. apply Hne. apply Permutation_sym, Permutation_nil in Hp. exact Hp. }
  destruct (calculate_statistics_fields total errors total_time results Hne Htime)
    as (st0 & lo & hi & E0 & Hlo & Hhi & T1 & T2 & T3 & T4 & T5
        & Havg & Hmin & Hmax & H50 & H95 & H99).
  rewrite E in E0. injection E0 as <-.
  destruct (calculate_statistics_fields total errors total_time results' Hne' Htime)
    as (st' & lo' & hi' & E' & Hlo' & Hhi' & T1' & T2' & T3' & T4' & T5'
        & Havg' & Hmin' & Hmax' & H50' & H95' & H99').
  exists st'. split; [exact E' |].
  assert (Py.len results' = Py.len results) as Hlen.
  { unfold Py.len. rewrite (Permutation_length Hp). reflexivity. }
  pose proof (len_pos _ Hne) as Hpos.
  destruct (percentile_indices _ Hpos) as (I50 & I95 & I99).
  assert (smallest results lo') as Hlo2.
  { destruct Hlo' as [Hin Hall]. split.
    - eapply Permutation_in; [apply Permutation_sym, Hp | exact Hin].
    - intros y Hy. apply Hall. eapply Permutation_in; [exact Hp | exact Hy]. }
  assert (largest results hi') as Hhi2.
  { destruct Hhi' as [Hin Hall]. split.
    - eapply Permutation_in; [apply Permutation_sym, Hp | exact Hin].
    - intros y Hy. apply Hall. eapply Permutation_in; [exact Hp | exact Hy]. }
  unfold same_statistics.
  rewrite T1, T2, T3, T4, T5, T1', T2', T3', T4', T5', Havg, Havg', Hmin, Hmin',
    Hmax, Hmax', H50, H50', H95, H95', H99, H99'.
  rewrite !nearest_rank_ranked by (rewrite ?Hlen; lia). rewrite Hlen.
  repeat split; try reflexivity; apply round2_proper.
  - unfold arithmetic_mean. rewrite Hlen, (sum_perm _ _ Hp). reflexivity.
  - apply (smallest_unique results); assumption.
  - apply (largest_unique results); assumption.
  - apply ranked_perm; [exact Hp | lia].
  - apply ranked_perm; [exact Hp | lia].
  - apply ranked_perm; [exact Hp | lia].
Qed.

Lemma statistics_order_independent_sample :
  Permutation [30; 10; 20] [10; 20; 30] /\
  exists st st',
    calculate_statistics 3 0 2 [30; 10; 20] = Returned (Some st) /\
    calculate_statistics 3 0 2 [10; 20; 30] = Returned (Some st') /\
    same_statistics st st'.
Proof.
  assert (Permutation [30; 10; 20] [10; 20; 30]) as Hp.
  { apply Permutation_trans with [10; 30; 20]; [apply perm_swap |].
    apply perm_skip. apply perm_swap. }
  split; [exact Hp |].
  eexists.
  destruct (statistics_order_independent 3 0 2 [30; 10; 20] [10; 20; 30] _ Hp eq_refl)
    as (st' & E' & Hs).
  exists st'. split; [vm_compute; reflexivity |]. split; [exact E' | exact Hs].
Defined.

Lemma binary64_indices_sample :
  (1 <= 500 <= 2000)%Z /\
  Binary64.index_of 500 50 = 250%Z /\
  Binary64.index_of 500 95 = 475%Z /\
  Binary64.index_of 500 99 = 495%Z.
Proof.
  split; [lia |].
  destruct (binary64_indices 500) as (H50 & H95 & H99); [lia |].
  rewrite H50, H95, H99. repeat split; vm_compute; reflexivity.
Defined.

(** ** What a run counts and when it fails *)

Definition successes (futures : list outcome) : Z :=
  Z.of_nat (List.length (filter success futures)).

Lemma successes_failures (futures : list outcome) :
  (successes futures + failures futures = Py.len futures)%Z.
Proof.
  unfold successes, failures, Py.len.
  induction futures as [| o rest IH]; [reflexivity |].
  cbn [filter List.length]. destruct (success o); cbn [negb List.length];
    rewrite ?Nat2Z.inj_succ; lia.
Qed.

Lemma outcomes_length (env : run_env) (total : Z) :
  (0 <= total)%Z -> Py.len (outcomes env total) = total.
Proof.
  intro H. unfold Py.len, outcomes, range. rewrite length_map, length_seq. lia.
Qed.

(** A run with a pool of at least one worker, a positive number of requests
    and a non-zero wall time issues exactly [total] requests to the endpoint
    and returns a record whose [failed] is the number of outcomes that are
    not a 200 response and whose [successful] is the number of those that
    are. *)
Theorem run_counts (endpoint name : string) (concurrent total : Z)
        (env : run_env) (w : list string) :
  (0 < concurrent)%Z -> (0 < total)%Z -> ~ wall_time env == 0 ->
  exists st,
    run_load_test endpoint name concurrent total env w =
    (Returned (Some st),
     w ++ repeat (BASE_URL ++ endpoint)%string (Z.to_nat total)) /\
    total_requests st = total /\
    failed st = failures (outcomes env total) /\
    successful st = successes (outcomes env total).
Proof.
  intros Hc Ht Hw.
  destruct (calculate_statistics_fields total (failures (outcomes env total)) (wall_time env)
              _ (outcomes_nonempty env total Ht) Hw)
    as (st & _ & _ & E & _ & _ & T1 & T2 & T3 & _).
  exists st. split; [rewrite run_load_test_eq by exact Hc; rewrite E; reflexivity |].
  split; [exact T1 |]. split; [exact T3 |].
  rewrite T2. pose proof (successes_failures (outcomes env total)) as H.
  rewrite outcomes_length in H by lia. lia.
Qed.

Lemma run_counts_sample :
  (0 < 2)%Z /\ (0 < 3)%Z /\ ~ wall_time steady == 0 /\
  exists st w',
    run_load_test "/api/sync/users" "SYNC - Get Users" 2 3 steady [] =
    (Returned (Some st), w') /\
    List.length w' = 3%nat /\ successful st = 3%Z /\ failed st = 0%Z.
Proof.
  split; [lia |]. split; [lia |]. split; [discriminate |].
  destruct (run_counts "/api/sync/users" "SYNC - Get Users" 2 3 steady [])
    as (st & E & _ & Hf & Hs); [lia | lia | discriminate |].
  exists st. eexists. split; [exact E |].
  split; [reflexivity |]. rewrite Hs, Hf. split; reflexivity.
Defined.

(** A run whose clock reads the same before and after the pool issues all
    its requests and then fails with [ZeroDivisionError] at
    [total / total_time]: no statistics are returned. *)
Theorem zero_wall_time_raises (endpoint name : string) (concurrent total : Z)
        (env : run_env) (w : list string) :
  (0 < concurrent)%Z -> (0 < total)%Z -> wall_time env == 0 ->
  run_load_test endpoint name concurrent total env w =
  (Raised ZeroDivisionError,
   w ++ repeat (BASE_URL ++ endpoint)%string (Z.to_nat total)).
Proof.
  intros Hc Ht Hw. rewrite run_load_test_eq by exact Hc.
  rewrite calculate_statistics_zero_time;
    [reflexivity | apply outcomes_nonempty, Ht | exact Hw].
Qed.

(** every request answers 200 at once, and the clock does not advance *)
Definition frozen : run_env :=
  {| start_clock := 7; end_clock := 7;
     completed := fun _ =>
       {| t_begin := 7; reply := Returned {| status_code := 200 |}; t_finish := 7 |} |}.

Lemma zero_wall_time_raises_sample :
  (0 < 1)%Z /\ (0 < 2)%Z /\ wall_time frozen == 0 /\
  run_load_test "/api/async/users" "ASYNC - Get Users" 1 2 frozen [] =
  (Raised ZeroDivisionError,
   ["http://localhost:5000/api/async/users"; "http://localhost:5000/api/async/users"]%string).
Proof.
  split; [lia |]. split; [lia |]. split; [reflexivity |].
  apply (zero_wall_time_raises "/api/async/users" "ASYNC - Get Users" 1 2 frozen []);
    [lia | lia | reflexivity].
Defined.

(** ** Bounds and composition of the comparison *)

Lemma zero_baseline_division_aux (candidate baseline : stats) :
  requests_per_sec baseline == 0 \/ avg_response_ms baseline == 0 ->
  compare candidate baseline = Raised ZeroDivisionError.
Proof.
  intro H. unfold compare.
  destruct (Qeq_dec (requests_per_sec baseline) 0) as [Z0 | N0].
  - rewrite (div_zero _ _ Z0). reflexivity.
  - destruct H as [H | H]; [contradiction |].
    rewrite (div_nonzero _ _ N0), (div_zero _ _ H). reflexivity.
Qed.

Lemma compare_inv (async_stats sync_stats : stats) (c : comparison) :
  compare async_stats sync_stats = Returned c ->
  ~ requests_per_sec sync_stats == 0 /\ ~ avg_response_ms sync_stats == 0 /\
  throughput_improvement c =
    (requests_per_sec async_stats - requests_per_sec sync_stats)
    / requests_per_sec sync_stats * 100 /\
  faster_by c =
    (avg_response_ms sync_stats - avg_response_ms async_stats)
    / avg_response_ms sync_stats * 100.
Proof.
  intro E.
  destruct (Qeq_dec (requests_per_sec sync_stats) 0) as [Z0 | N0].
  { rewrite zero_baseline_division_aux in E by (left; exact Z0). discriminate. }
  destruct (Qeq_dec (avg_response_ms sync_stats) 0) as [Z1 | N1].
  { rewrite zero_baseline_division_aux in E by (right; exact Z1). discriminate. }
  rewrite (compare_returns _ _ N0 N1) in E. injection E as <-. auto.
Qed.

Lemma scaled_ratio_ge (a b : Q) : 0 < b -> 0 <= a -> -100 <= (a - b) / b * 100.
Proof.
  intros Hb Ha.
  assert ((a - b) / b * 100 == a * 100 * / b - 100) as -> by (field; lra).
  assert (0 <= a * 100 * / b); [| lra].
  apply Qmult_le_0_compat; [lra |]. apply Qlt_le_weak, Qinv_lt_0_compat, Hb.
Qed.

Lemma scaled_ratio_le (a b : Q) : 0 < b -> 0 <= a -> (b - a) / b * 100 <= 100.
Proof.
  intros Hb Ha.
  assert ((b - a) / b * 100 == 100 - a * 100 * / b) as -> by (field; lra).
  assert (0 <= a * 100 * / b); [| lra].
  apply Qmult_le_0_compat; [lra |]. apply Qlt_le_weak, Qinv_lt_0_compat, Hb.
Qed.

(** With non-negative candidate figures and positive baseline figures, the
    throughput delta is never below -100 and the latency delta never above
    +100. *)
Theorem comparison_bounds (candidate baseline : stats) (c : comparison) :
  compare candidate baseline = Returned c ->
  0 <= requests_per_sec candidate -> 0 < requests_per_sec baseline ->
  0 <= avg_response_ms candidate -> 0 < avg_response_ms baseline ->
  -100 <= throughput_improvement c /\ faster_by c <= 100.
Proof.
  intros E Hr Hrb Ha Hab.
  destruct (compare_inv _ _ _ E) as (_ & _ & -> & ->).
  split; [apply scaled_ratio_ge | apply scaled_ratio_le]; assumption.
Qed.

Lemma comparison_bounds_sample :
  exists c,
    compare (stats_with 0 400) (stats_with 100 20) = Returned c /\
    -100 <= throughput_improvement c /\ faster_by c <= 100.
Proof.
  eexists. split; [vm_compute; reflexivity |].
  apply (comparison_bounds (stats_with 0 400) (stats_with 100 20) _ eq_refl);
    vm_compute; congruence.
Defined.

Lemma round2_nonneg (x : Q) : 0 <= x -> 0 <= Py.round2 x.
Proof.
  intro H. apply round2_mono in H.
  assert (Py.round2 0 == 0) as E by reflexivity. rewrite E in H. exact H.
Qed.

Lemma div_antitone (n a b : Q) : 0 <= n -> 0 < a -> a <= b -> n / b <= n / a.
Proof.
  intros Hn Ha Hab. apply Qle_shift_div_l; [exact Ha |].
  assert (n / b * a == n * (a * / b)) as -> by (field; lra).
  assert (a * / b <= 1) as H1.
  { assert (a * / b == a / b) as -> by reflexivity.
    apply Qle_shift_div_r; lra. }
  assert (n * (a * / b) <= n * 1); [| lra].
  apply Qmult_le_l' || (rewrite (Qmult_comm n), (Qmult_comm n 1);
                        apply Qmult_le_compat_r; assumption).
Qed.

(** Two runs of the same number of requests, compared: if the candidate run
    took no longer than the baseline run, the throughput delta the comparison
    reports is not negative. *)
Theorem faster_run_never_negative
        (total ea eb : Z) (ta tb : Q) (ra rb : list Q) (sa sb : stats) (c : comparison) :
  calculate_statistics total ea ta ra = Returned (Some sa) ->
  calculate_statistics total eb tb rb = Returned (Some sb) ->
  compare sa sb = Returned c ->
  (0 <= total)%Z -> 0 < ta -> ta <= tb ->
  0 <= throughput_improvement c.
Proof.
  intros Ea Eb Ec Ht Hta Htab.
  destruct (calculate_statistics_inv _ _ _ _ _ Ea) as (Hna & Hza).
  destruct (calculate_statistics_inv _ _ _ _ _ Eb) as (Hnb & Hzb).
  destruct (calculate_statistics_fields total ea ta ra Hna Hza)
    as (sa' & _ & _ & Ea' & _ & _ & _ & _ & _ & _ & Hra & _).
  destruct (calculate_statistics_fields total eb tb rb Hnb Hzb)
    as (sb' & _ & _ & Eb' & _ & _ & _ & _ & _ & _ & Hrb & _).
  rewrite Ea in Ea'. injection Ea' as <-. rewrite Eb in Eb'. injection Eb' as <-.
  destruct (compare_inv _ _ _ Ec) as (Hnz & _ & -> & _).
  assert (0 <= inject_Z total) as Hn.
  { change 0 with (inject_Z 0). rewrite <- Zle_Qle. exact Ht. }
  assert (requests_per_sec sb <= requests_per_sec sa) as Hle.
  { rewrite Hra, Hrb. apply round2_mono. apply div_antitone; [exact Hn | exact Hta | exact Htab]. }
  assert (0 <= requests_per_sec sb) as H0.
  { rewrite Hrb. apply round2_nonneg. apply Qle_shift_div_l; lra. }
  assert (0 < requests_per_sec sb) as Hpos.
  { destruct (Qlt_le_dec 0 (requests_per_sec sb)) as [L | G]; [exact L |].
    exfalso. apply Hnz. apply Qle_antisym; assumption. }
  set (a := requests_per_sec sa) in *. set (b := requests_per_sec sb) in *.
  assert ((a - b) / b * 100 == (a - b) * 100 * / b) as -> by (field; lra).
  apply Qmult_le_0_compat; [lra |]. apply Qlt_le_weak, Qinv_lt_0_compat, Hpos.
Qed.

Lemma faster_run_never_negative_sample :
  exists sa sb c,
    calculate_statistics 10 0 2 sample = Returned (Some sa) /\
    calculate_statistics 10 0 5 sample = Returned (Some sb) /\
    compare sa sb = Returned c /\
    0 <= throughput_improvement c.
Proof.
  do 3 eexists. split; [vm_compute; reflexivity |].
  split; [vm_compute; reflexivity |]. split; [vm_compute; reflexivity |].
  apply (faster_run_never_negative 10 0 0 2 5 sample sample _ _ _ eq_refl eq_refl eq_refl);
    [lia | reflexivity | discriminate].
Defined.

(** ** The loop over the pairs: which pairs are reported *)

(** both sides of a pair have statistics *)
Definition both_present (all_results : list (string * option stats))
           (pair : string * string * string) : bool :=
  let '(_, async_key, sync_key) := pair in
  match dict_get all_results async_key, dict_get all_results sync_key with
  | Some _, Some _ => true
  | _, _ => false
  end.

(** When the loop finishes, it has reported exactly the pairs whose two runs
    both returned statistics, in the order of the list; a pair with a missing
    side is skipped without an error. *)
Theorem compare_all_reports_present
        (all_results : list (string * option stats))
        (pairs : list (string * string * string)) (cs : list (string * comparison)) :
  compare_all all_results pairs = Returned cs ->
  map fst cs = map (fun p => fst (fst p)) (filter (both_present all_results) pairs).
Proof.
  revert cs. induction pairs as [| [[name async_key] sync_key] rest IH]; intros cs E.
  - simpl in E. injection E as <-. reflexivity.
  - simpl in E. cbn [filter]. unfold both_present at 1.
    destruct (dict_get all_results async_key) as [a |];
      [destruct (dict_get all_results sync_key) as [s |] |].
    + destruct (compare a s) as [c | e]; [| discriminate]. simpl in E.
      destruct (compare_all all_results rest) as [cs' | e]; [| discriminate].
      simpl in E. injection E as <-. simpl. f_equal. apply IH. reflexivity.
    + apply IH. exact E.
    + apply IH. exact E.
Qed.

Lemma compare_all_reports_present_sample :
  let d := all_results_of None (Some (stats_with 150 10)) (Some (stats_with 0 0))
                          (Some (stats_with 100 20)) in
  exists cs,
    compare_all d comparisons = Returned cs /\
    map fst cs = ["Orders Endpoint"%string].
Proof.
  intro d. pose proof (compare_all_reports_present d comparisons) as H.
  destruct (compare_all d comparisons) as [cs | e] eqn:E;
    [| vm_compute in E; discriminate].
  exists cs. split; [reflexivity |]. rewrite (H cs eq_refl). reflexivity.
Defined.

(** ** check_server and reset_metrics *)

Definition metrics_url : string := (BASE_URL ++ "/metrics")%string.
Definition reset_url : string := (BASE_URL ++ "/metrics/reset")%string.

(** [check_server] never raises: it sends one GET to [/metrics] and answers
    [True] exactly when a response with status code 200 came back. *)
Theorem check_server_total (o : request_obs) (w : list string) :
  exists up,
    check_server o w = (Returned up, w ++ [metrics_url]) /\
    (up = true <-> exists r, reply o = Returned r /\ status_code r = 200%Z).
Proof.
  unfold check_server, try_except, bind, requests_get, ret, metrics_url.
  destruct (reply o) as [r | e]; eexists; (split; [reflexivity |]).
  - rewrite Z.eqb_eq. split.
    + intro H. exists r. auto.
    + intros (r' & E & H). injection E as <-. exact H.
  - split; [discriminate |]. intros (r & E & _). discriminate.
Qed.

(** [reset_metrics] never raises: it sends one POST to [/metrics/reset] and
    reports success for every response, whatever its status code; only an
    exception makes it report the failure. *)
Theorem reset_metrics_total (o : request_obs) (w : list string) :
  exists line,
    reset_metrics o w = (Returned line, w ++ [reset_url]) /\
    (line = "✓ Metrics reset"%string <-> exists r, reply o = Returned r) /\
    (line = "✗ Failed to reset metrics"%string <-> exists e, reply o = Raised e).
Proof.
  unfold reset_metrics, try_except, bind, requests_post, ret, reset_url.
  destruct (reply o) as [r | e]; eexists; (split; [reflexivity |]); split; split;
    try discriminate; try (intros _; eexists; reflexivity);
    try (intros (x & E); discriminate); reflexivity.
Qed.
